(** * ld-crypto-syntax: loaders, canonicalisation helpers and the base cryptosuite

    A shallow embedding of
    - [src/context/constants.ts]  (context URLs),
    - [src/utils/loader.ts]       (network, fallback, extend, basic),
    - the JSON-LD helper module   (canonize, canonizeDocument, canonizeProof,
                                   expandController, expandVerificationMethod,
                                   includeContext),
    - the [Cryptosuite] base class (createProof, verifyProof).

    JSON-LD nodes are JavaScript objects: ordered property lists.  Functions
    that throw, return promises, touch the network or write to an object they
    were handed are computations over an explicit state. *)

From Stdlib Require Import String Ascii List Bool NArith.
From stdpp Require Import gmap strings list fin_maps.
Import ListNotations.
Local Open Scope string_scope.
Local Set Warnings "-register-all".

(** ** JSON values and objects *)

(** A JSON(-LD) value.  Numbers are kept as their decimal literal: nothing in
    the modelled code computes with them. *)
Inductive value : Type :=
  | JNull
  | JBool (b : bool)
  | JNumber (literal : string)
  | JString (s : string)
  | JArray (items : list value)
  | JObject (properties : list (string * value)).

(** A JavaScript object with string keys, as the list of its properties in
    the order a reader of the object sees: the keys that are array indices
    first, then the other keys in the order they were created. *)
Abbreviation object := (list (string * value)).

Definition is_digit (c : ascii) : bool :=
  (48 <=? nat_of_ascii c)%nat && (nat_of_ascii c <=? 57)%nat.

(** The number a string of decimal digits writes, after [acc]. *)
Fixpoint digits_value (s : string) (acc : N) : option N :=
  match s with
  | EmptyString => Some acc
  | String c rest =>
      if is_digit c
      then digits_value rest (10 * acc + (N_of_ascii c - 48))%N
      else None
  end.

(** A key that is an array index: the canonical decimal form, without
    leading zero, of an integer from 0 to 2^32 - 2.  An object lists such
    keys before all others, whenever they were created. *)
Definition is_array_index (k : string) : bool :=
  match k with
  | EmptyString => false
  | String c rest =>
      if Ascii.eqb c "0"%char
      then match rest with EmptyString => true | _ => false end
      else
        match digits_value k 0 with
        | Some n => (n <? 2 ^ 32 - 1)%N
        | None => false
        end
  end.

(** [o[k]]: [None] stands for [undefined]. *)
Fixpoint get_property (k : string) (o : object) : option value :=
  match o with
  | [] => None
  | (k', v') :: o' => if String.eqb k k' then Some v' else get_property k o'
  end.

(** [o[k] = v] for a key that is not an array index: an existing property
    keeps its place, a new one goes last. *)
Fixpoint set_property (k : string) (v : value) (o : object) : object :=
  match o with
  | [] => [(k, v)]
  | (k', v') :: o' =>
      if String.eqb k k' then (k, v) :: o' else (k', v') :: set_property k v o'
  end.

(** [delete o[k]]. *)
Fixpoint delete_property (k : string) (o : object) : object :=
  match o with
  | [] => []
  | (k', v') :: o' =>
      if String.eqb k k' then delete_property k o'
      else (k', v') :: delete_property k o'
  end.

(** [c === v] for a string [c]; [v] is [None] when undefined. *)
Definition strict_equals_string (c : string) (v : option value) : bool :=
  match v with
  | Some (JString s) => String.eqb c s
  | _ => false
  end.

(** [Array.isArray(v)] followed by [v.includes(c)] for a string [c]. *)
Definition array_includes_string (c : string) (items : list value) : bool :=
  existsb (fun item => strict_equals_string c (Some item)) items.

(** ** src/context/constants.ts *)

Definition CREDENTIAL_CONTEXT_V1_URL : string := "https://www.w3.org/2018/credentials/v1".
Definition CREDENTIAL_CONTEXT_V2_URL : string := "https://www.w3.org/ns/credentials/v2".
Definition SECURITY_CONTEXT_V1_URL : string := "https://w3id.org/security/v1".
Definition SECURITY_CONTEXT_V2_URL : string := "https://w3id.org/security/v2".
Definition SECURITY_PROOF_URL : string := "https://w3id.org/security#proof".
Definition SECURITY_SIGNATURE_URL : string := "https://w3id.org/security#signature".

(** Modelled from the spec: the JSON-LD helpers read the member [SECURITY_V2]
    of the constants module, while the constants file at hand declares the
    version 2 security context under the name [SECURITY_CONTEXT_V2_URL] only.
    The spec calls the value written by the helpers "the fixed security
    context" and lists [https://w3id.org/security/v2] among the fixed URLs, so
    [SECURITY_V2] is taken to be that constant. *)
Definition SECURITY_V2 : string := SECURITY_CONTEXT_V2_URL.

(** ** Errors *)

(** The enumeration [BasicErrorCode] of [error/basic.ts]: the two members the
    loaders use, and the others by name. *)
Inductive BasicErrorCode : Type :=
  | NETWORK_CONNECTION_ERROR
  | DOCUMENT_NOT_FOUND_ERROR
  | OTHER_BASIC_ERROR (member : string).

(** The enumeration [ErrorCode] of [error/constants.ts]: the member the base
    cryptosuite uses, and the others by name. *)
Inductive ErrorCode : Type :=
  | NOT_IMPLEMENTED_ERROR
  | OTHER_ERROR (member : string).

(** What a [throw] carries: one of the library's two coded error classes,
    built as [new C(code, title, message)], or a plain JavaScript error
    object ([new Error(message)] has the name ["Error"]; the errors raised by
    the platform and by jsonld carry their own name). *)
Inductive thrown : Type :=
  | BasicError (code : BasicErrorCode) (title message : string)
  | DataIntegrityError (code : ErrorCode) (title message : string)
  | JsError (name message : string).

(** The error code a thrown value carries, if it is one of the coded errors. *)
Definition basic_code (e : thrown) : option BasicErrorCode :=
  match e with BasicError c _ _ => Some c | _ => None end.

Definition integrity_code (e : thrown) : option ErrorCode :=
  match e with DataIntegrityError c _ _ => Some c | _ => None end.

Definition is_coded_error (e : thrown) : bool :=
  match e with JsError _ _ => false | _ => true end.

(** ** Computations *)

(** A promise, by the way it settles. *)
Inductive promise (A : Type) : Type :=
  | Resolved (a : A)
  | RejectedWith (e : thrown).
Arguments Resolved {A} a.
Arguments RejectedWith {A} e.

(** How a call ends: it returns a value or throws. *)
Inductive outcome (A : Type) : Type :=
  | Returned (a : A)
  | Threw (e : thrown).
Arguments Returned {A} a.
Arguments Threw {A} e.

(** A computation over a state of type [St]. *)
Definition Eff (St A : Type) : Type := St -> St * outcome A.

Definition ret {St A} (a : A) : Eff St A := fun s => (s, Returned a).

Definition throw {St A} (e : thrown) : Eff St A := fun s => (s, Threw e).

Definition bind {St A B} (m : Eff St A) (k : A -> Eff St B) : Eff St B :=
  fun s =>
    match m s with
    | (s', Returned a) => k a s'
    | (s', Threw e) => (s', Threw e)
    end.

(** [try { m } catch (error) { handler error }]. *)
Definition try_catch {St A} (m : Eff St A) (handler : thrown -> Eff St A) : Eff St A :=
  fun s =>
    match m s with
    | (s', Returned a) => (s', Returned a)
    | (s', Threw e) => handler e s'
    end.

(** [await p]. *)
Definition await {St A} (p : promise A) : Eff St A :=
  match p with
  | Resolved a => ret a
  | RejectedWith e => throw e
  end.

(** The body of an [async function]: it always returns a promise, rejected
    with whatever the body throws. *)
Definition async {St A} (body : Eff St A) : Eff St (promise A) :=
  fun s =>
    match body s with
    | (s', Returned a) => (s', Returned (Resolved a))
    | (s', Threw e) => (s', Returned (RejectedWith e))
    end.

Declare Scope eff_scope.
Delimit Scope eff_scope with eff.
Notation "'let!' x ':=' m 'in' k" := (bind m (fun x => k))
  (at level 10, x name, m at level 100, k at level 200) : eff_scope.
Notation "m ';;!' k" := (bind m (fun _ => k))
  (at level 100, k at level 200, right associativity) : eff_scope.

(** The promise that [async] code of the form [return await call] returns. *)
Definition settle {A} (r : outcome (promise A)) : promise A :=
  match r with
  | Returned p => p
  | Threw e => RejectedWith e
  end.

(** The error with which a call returning a promise fails, whether it throws
    or hands back a rejected promise. *)
Definition failure {A} (r : outcome (promise A)) : option thrown :=
  match r with
  | Threw e => Some e
  | Returned (RejectedWith e) => Some e
  | Returned (Resolved _) => None
  end.

(** The value such a call delivers. *)
Definition delivered {A} (r : outcome (promise A)) : option A :=
  match r with
  | Returned (Resolved a) => Some a
  | _ => None
  end.

(** ** The platform and the collaborators *)

Abbreviation URI := string.

(** A reference to an object of the JavaScript heap. *)
Abbreviation ref := positive.

Inductive OneOrMany (A : Type) : Type :=
  | One (a : A)
  | Many (items : list A).
Arguments One {A} a.
Arguments Many {A} items.

(** [RemoteDocument]; an absent [contextUrl] is [None]. *)
Record RemoteDocument : Type := {
  contextUrl : option URI;
  documentUrl : URI;
  document : value;
}.

Section Platform.

(** Everything outside the program that a collaborator may read or change:
    the network, above all. *)
Variable World : Type.

(** [Loader]: a function from a URL to a promise of a remote document. *)
Definition Loader : Type := URI -> Eff World (promise RemoteDocument).

(** The global [fetch] and the [json()] method of its response. *)
Variable Response : Type.
Variable fetch : URI -> Eff World (promise Response).
Variable Response_json : Response -> Eff World (promise value).

(** The string a thrown value turns into inside a template literal. *)
Variable toString : thrown -> string.

(** The built-in context table [URL_CONTEXT_MAP] of [src/context/map.ts], a
    [Map] from URLs to context documents; its content is not fixed here. *)
Variable URL_CONTEXT_MAP : gmap string value.

(** [Options.Canonize]. *)
Record Canonize : Type := {
  algorithm : string;
  format : string;
  documentLoader : Loader;
  skipExpansion : bool;
}.

(** The options object handed to [jsonld.frame]. *)
Record FrameOptions : Type := {
  frame_documentLoader : Loader;
  compactToRelative : bool;
  safe : bool;
}.

(** [jsonld.canonize] and [jsonld.frame].  They see the object they are
    given and the world; they do not write to the caller's objects.  A
    null or undefined result of [frame] is [None]. *)
Variable jsonld_canonize : object -> Canonize -> Eff World (promise string).
Variable jsonld_frame :
  object -> object -> FrameOptions -> Eff World (promise (option object)).

(** The options object [expandVerificationMethod] hands to [jsonld.frame]. *)
Record MethodFrameOptions : Type := {
  method_documentLoader : Loader;
  method_compactToRelative : bool;
  expandContext : string;
}.

(** [jsonld.frame] again, called on the URL of a document instead of on a
    document, with the options above. *)
Variable jsonld_frame_url :
  URI -> object -> MethodFrameOptions -> Eff World (promise (option object)).

(** *** src/utils/loader.ts *)

(** The template literal of [network]'s handler. *)
Definition network_message (url : URI) (error : thrown) : string :=
  "Failed to fetch the resource from " ++ url ++ ": " ++ toString error ++ "!".

Definition network (url : URI) : Eff World (promise RemoteDocument) :=
  async
    (try_catch
       (let! response := (let! p := fetch url in await p) in
        let! document := (let! p := Response_json response in await p) in
        ret {| contextUrl := Some url; documentUrl := url; document := document |})%eff
       (fun error =>
          throw (BasicError NETWORK_CONNECTION_ERROR "loader#defaultLoader"
                   (network_message url error)))).

(** The template literal of [fallback]. *)
Definition fallback_message (url : URI) : string :=
  "No custom loader was provided and the document associated with the given URL was not found: "
    ++ url ++ "!".

(** Not an [async] function: the error is thrown at the call. *)
Definition fallback (url : URI) : Eff World (promise RemoteDocument) :=
  throw (BasicError DOCUMENT_NOT_FOUND_ERROR "loader#defaultLoader"
           (fallback_message url)).

(** [URL_CONTEXT_MAP.has(url)] and then [URL_CONTEXT_MAP.get(url)]. *)
Definition extend (loader : Loader) : Loader :=
  fun url =>
    match URL_CONTEXT_MAP !! url with
    | Some context =>
        ret (Resolved {| contextUrl := None; documentUrl := url; document := context |})
    | None => loader url
    end.

Definition basic : Loader := extend fallback.

(** *** The JSON-LD helpers *)

(** The heap of objects the caller shares with a callee, and the world. *)
Record store : Type := {
  heap : gmap ref object;
  world : World;
}.

(** Run a computation that only touches the world. *)
Definition lift_world {A} (m : Eff World A) : Eff store A :=
  fun s =>
    match m (world s) with
    | (w', r) => ({| heap := heap s; world := w' |}, r)
    end.

(** Update the object behind a reference in place.  A reference that
    denotes no object stands for [null] or [undefined], on which property
    writes and deletions throw a [TypeError]; the wording of its message is
    the engine's, one wording is fixed here. *)
Definition update_object (r : ref) (f : object -> object) : Eff store unit :=
  fun s =>
    match heap s !! r with
    | Some o => ({| heap := <[r := f o]> (heap s); world := world s |}, Returned tt)
    | None => (s, Threw (JsError "TypeError" "Cannot convert undefined or null to object"))
    end.

Definition read_object (r : ref) : Eff store object :=
  fun s =>
    match heap s !! r with
    | Some o => (s, Returned o)
    | None => (s, Threw (JsError "TypeError" "Cannot convert undefined or null to object"))
    end.

Definition canonize (input : object) (options : Canonize) : Eff World (promise string) :=
  async (let! p := jsonld_canonize input options in await p)%eff.

(** [skipExpansion] defaults to [false] at the call. *)
Definition canonizeDocument (input : object) (loader : Loader) (skipExpansion : bool)
  : Eff World (promise string) :=
  async
    (let! p := canonize input
                 {| algorithm := "URDNA2015";
                    format := "application/n-quads";
                    documentLoader := loader;
                    skipExpansion := skipExpansion |} in
     await p)%eff.

(** The options [canonizeProof] passes on. *)
Definition proof_options (loader : Loader) : Canonize :=
  {| algorithm := "URDNA2015";
     format := "application/n-quads";
     documentLoader := loader;
     skipExpansion := false |}.

(** The object the three writes of [canonizeProof] leave behind. *)
Definition stripped_proof (o : object) : object :=
  delete_property "proofValue"
    (delete_property "nonce"
       (set_property "@context" (JString SECURITY_V2) o)).

(** The store in which the reference [r] denotes the object [o]. *)
Definition with_object (s : store) (r : ref) (o : object) : store :=
  {| heap := <[r := o]> (heap s); world := world s |}.

(** The proof is the caller's object, passed by reference; the primitive
    reads it once the three writes are done. *)
Definition canonizeProof (proof : ref) (loader : Loader) : Eff store (promise string) :=
  async
    (update_object proof (set_property "@context" (JString SECURITY_V2)) ;;!
     update_object proof (delete_property "nonce") ;;!
     update_object proof (delete_property "proofValue") ;;!
     let! input := read_object proof in
     let! p := lift_world (canonize input (proof_options loader)) in
     await p)%eff.

(** The frame literal: the computed key [term] is defined last, over the
    two properties written before it; a term that is an array index is
    listed before them. *)
Definition controller_frame (controller term verificationId : string) : object :=
  let method :=
    JObject [("@embed", JString "@never"); ("id", JString verificationId)] in
  if is_array_index term
  then [(term, method); ("@context", JString SECURITY_V2); ("id", JString controller)]
  else set_property term method
         [("@context", JString SECURITY_V2); ("id", JString controller)].

(** The options [expandController] passes on. *)
Definition controller_options (loader : Loader) : FrameOptions :=
  {| frame_documentLoader := loader; compactToRelative := false; safe := true |}.

(** The template literal of [expandController]. *)
Definition controller_message (controller : string) : string :=
  "Controller " ++ controller ++ " not found.".

Definition expandController (document : object) (controller term verificationId : string)
    (loader : Loader) : Eff World (promise object) :=
  async
    (let! p := jsonld_frame document (controller_frame controller term verificationId)
                 (controller_options loader) in
     let! framed := await p in
     match framed with
     | None => throw (JsError "Error" (controller_message controller))
     | Some framed => ret framed
     end)%eff.

(** The frame literal of [expandVerificationMethod]. *)
Definition method_frame (method : string) : object :=
  [("@context", JString SECURITY_V2);
   ("@embed", JString "@always");
   ("id", JString method)].

(** The options [expandVerificationMethod] passes on. *)
Definition method_options (loader : Loader) : MethodFrameOptions :=
  {| method_documentLoader := loader;
     method_compactToRelative := false;
     expandContext := SECURITY_V2 |}.

(** The template literal of [expandVerificationMethod]. *)
Definition method_message (method : string) : string :=
  "Verification method " ++ method ++ " not found.".

Definition expandVerificationMethod (method : string) (loader : Loader)
  : Eff World (promise object) :=
  async
    (let! p := jsonld_frame_url method (method_frame method) (method_options loader) in
     let! framed := await p in
     match framed with
     | None => throw (JsError "Error" (method_message method))
     | Some framed => ret framed
     end)%eff.

Definition includeContext (document : object) (context : string) : bool :=
  let fromContext := get_property "@context" document in
  if strict_equals_string context fromContext then true
  else
    match fromContext with
    | Some (JArray items) => array_includes_string context items
    | _ => false
    end.

(** *** The Cryptosuite base class *)

Record CreateOptions : Type := {
  create_proof : object;
  create_loader : option Loader;
}.

Record VerifyOptions : Type := {
  verify_loader : option Loader;
}.

Record VerificationResult : Type := {
  verified : bool;
  verifiedDocument : option object;
  warnings : option (OneOrMany thrown);
  errors : option (OneOrMany thrown);
}.

Definition Cryptosuite_type : string := "DataIntegrityProof".

(** Static and not [async]: both throw at the call. *)
Definition createProof (_inputDocument : object) (_options : CreateOptions)
  : Eff World (promise object) :=
  throw (DataIntegrityError NOT_IMPLEMENTED_ERROR "Cryptosuite.createProof"
           "The createProof method must be implemented by a subclass.").

Definition verifyProof (_securedDocument : object) (_options : VerifyOptions)
  : Eff World (promise VerificationResult) :=
  throw (DataIntegrityError NOT_IMPLEMENTED_ERROR "Cryptosuite.verifyProof"
           "The verifyProof method must be implemented by a subclass.").

(** ** Properties of objects *)

Lemma get_set_property_eq k v o :
  get_property k (set_property k v o) = Some v.
Proof.
  induction o as [|[k' v'] o IH]; simpl.
  - by rewrite String.eqb_refl.
  - destruct (String.eqb k k') eqn:E; simpl; rewrite ?String.eqb_refl, ?E; done.
Qed.

Lemma get_set_property_ne k k' v o :
  k <> k' -> get_property k (set_property k' v o) = get_property k o.
Proof.
  intros Hne. apply String.eqb_neq in Hne.
  induction o as [|[k0 v0] o IH]; simpl.
  - by rewrite Hne.
  - destruct (String.eqb k' k0) eqn:E; simpl.
    + apply String.eqb_eq in E. subst k0. by rewrite Hne.
    + by rewrite IH.
Qed.

Lemma get_delete_property_eq k o :
  get_property k (delete_property k o) = None.
Proof.
  induction o as [|[k' v'] o IH]; simpl; [done|].
  destruct (String.eqb k k') eqn:E; simpl; rewrite ?E; done.
Qed.

Lemma get_delete_property_ne k k' o :
  k <> k' -> get_property k (delete_property k' o) = get_property k o.
Proof.
  intros Hne. apply String.eqb_neq in Hne.
  induction o as [|[k0 v0] o IH]; simpl; [done|].
  destruct (String.eqb k' k0) eqn:E; simpl.
  - apply String.eqb_eq in E. subst k0. by rewrite Hne.
  - by rewrite IH.
Qed.

Lemma delete_set_property_eq k v o :
  delete_property k (set_property k v o) = delete_property k o.
Proof.
  induction o as [|[k' v'] o IH]; simpl.
  - by rewrite String.eqb_refl.
  - destruct (String.eqb k k') eqn:E; simpl; rewrite ?String.eqb_refl, ?E, ?IH; done.
Qed.

Lemma delete_set_property_ne k k' v o :
  k <> k' ->
  delete_property k (set_property k' v o) = set_property k' v (delete_property k o).
Proof.
  intros Hne. apply String.eqb_neq in Hne.
  induction o as [|[k0 v0] o IH]; simpl.
  - by rewrite Hne.
  - destruct (String.eqb k' k0) eqn:E; simpl.
    + apply String.eqb_eq in E. subst k0. rewrite Hne. simpl.
      by rewrite String.eqb_refl.
    + destruct (String.eqb k k0) eqn:E0; simpl; rewrite ?E, IH; done.
Qed.

Lemma delete_delete_property k k' o :
  delete_property k (delete_property k' o) = delete_property k' (delete_property k o).
Proof.
  induction o as [|[k0 v0] o IH]; simpl; [done|].
  destruct (String.eqb k' k0) eqn:E, (String.eqb k k0) eqn:E0;
    simpl; rewrite ?E, ?E0, IH; done.
Qed.

Lemma set_set_property_eq k v v' o :
  set_property k v (set_property k v' o) = set_property k v o.
Proof.
  induction o as [|[k0 v0] o IH]; simpl.
  - by rewrite String.eqb_refl.
  - destruct (String.eqb k k0) eqn:E; simpl; rewrite ?String.eqb_refl, ?E, ?IH; done.
Qed.

(** ** The loaders *)

(** C4.  The fallback loader never hands back a document, whatever the URL:
    the call throws a [BasicError] whose code is
    [DOCUMENT_NOT_FOUND_ERROR], and leaves the world as it was. *)
Theorem fallback_always_document_not_found (u : URI) (w : World) :
  fallback u w
    = (w, Threw (BasicError DOCUMENT_NOT_FOUND_ERROR "loader#defaultLoader"
                   (fallback_message u)))
  /\ delivered (fallback u w).2 = None
  /\ exists e, failure (fallback u w).2 = Some e
               /\ basic_code e = Some DOCUMENT_NOT_FOUND_ERROR.
Proof.
  unfold fallback, throw; simpl. repeat split. eexists; split; reflexivity.
Qed.

(** C3.  The wrapped loader [extend f] serves every key of the built-in
    table from the table: it resolves to the stored document with
    [documentUrl] the URL asked for, the world is untouched and the result
    is the same for every wrapped loader, so [f] is not called.  On every
    other URL it is exactly [f]. *)
Theorem extend_serves_table_else_delegates (f : Loader) (u : URI) :
  (u ∈ dom URL_CONTEXT_MAP ->
     exists d, URL_CONTEXT_MAP !! u = Some d
       /\ (forall w, extend f u w
              = (w, Returned (Resolved {| contextUrl := None;
                                          documentUrl := u;
                                          document := d |})))
       /\ (forall g : Loader, extend f u = extend g u))
  /\ (u ∉ dom URL_CONTEXT_MAP -> extend f u = f u).
Proof.
  split.
  - intros [d Hd]%elem_of_dom. exists d. unfold extend. rewrite Hd. done.
  - intros Hu%not_elem_of_dom. unfold extend. by rewrite Hu.
Qed.

(** C10.  [basic] is [extend fallback]: a key of the built-in table is
    served from the table, any other URL fails with
    [DOCUMENT_NOT_FOUND_ERROR], and in both cases the world, the network
    included, is left as it was. *)
Theorem basic_is_extend_fallback (u : URI) (w : World) :
  basic = extend fallback
  /\ (u ∈ dom URL_CONTEXT_MAP ->
        exists d, URL_CONTEXT_MAP !! u = Some d
          /\ basic u w = (w, Returned (Resolved {| contextUrl := None;
                                                   documentUrl := u;
                                                   document := d |})))
  /\ (u ∉ dom URL_CONTEXT_MAP ->
        basic u w = (w, Threw (BasicError DOCUMENT_NOT_FOUND_ERROR
                                 "loader#defaultLoader" (fallback_message u))))
  /\ (basic u w).1 = w.
Proof.
  split; [reflexivity|]. unfold basic, extend, fallback, throw.
  split; [|split].
  - intros [d Hd]%elem_of_dom. exists d. by rewrite Hd.
  - intros Hu%not_elem_of_dom. by rewrite Hu.
  - by destruct (URL_CONTEXT_MAP !! u).
Qed.

(** [network], case by case on what [fetch] and [json()] do. *)
Lemma network_unfold (u : URI) (w : World) :
  network u w =
    match fetch u w with
    | (w1, Returned (Resolved response)) =>
        match Response_json response w1 with
        | (w2, Returned (Resolved d)) =>
            (w2, Returned (Resolved {| contextUrl := Some u;
                                       documentUrl := u;
                                       document := d |}))
        | (w2, Returned (RejectedWith e)) | (w2, Threw e) =>
            (w2, Returned (RejectedWith
                   (BasicError NETWORK_CONNECTION_ERROR "loader#defaultLoader"
                      (network_message u e))))
        end
    | (w1, Returned (RejectedWith e)) | (w1, Threw e) =>
        (w1, Returned (RejectedWith
               (BasicError NETWORK_CONNECTION_ERROR "loader#defaultLoader"
                  (network_message u e))))
    end.
Proof.
  unfold network, async, try_catch, bind, await, ret, throw.
  destruct (fetch u w) as [w1 [[response|e]|e]]; try reflexivity.
  destruct (Response_json response w1) as [w2 [[d|e]|e]]; reflexivity.
Qed.

(** C5.  When the fetch fails, or the fetch succeeds and parsing the
    response as JSON fails, [network] fails with a [BasicError] whose code
    is [NETWORK_CONNECTION_ERROR]; when both succeed it resolves to a
    remote document holding the parsed document; and it fails with nothing
    but that error. *)
Theorem network_fails_with_network_connection_error (u : URI) (w : World) :
  (forall w1 r e,
      fetch u w = (w1, r) -> failure r = Some e ->
      network u w
        = (w1, Returned (RejectedWith
                 (BasicError NETWORK_CONNECTION_ERROR "loader#defaultLoader"
                    (network_message u e)))))
  /\ (forall w1 response w2 r e,
        fetch u w = (w1, Returned (Resolved response)) ->
        Response_json response w1 = (w2, r) -> failure r = Some e ->
        network u w
          = (w2, Returned (RejectedWith
                   (BasicError NETWORK_CONNECTION_ERROR "loader#defaultLoader"
                      (network_message u e)))))
  /\ (forall w1 response w2 d,
        fetch u w = (w1, Returned (Resolved response)) ->
        Response_json response w1 = (w2, Returned (Resolved d)) ->
        network u w
          = (w2, Returned (Resolved {| contextUrl := Some u;
                                       documentUrl := u;
                                       document := d |})))
  /\ (forall e,
        failure (network u w).2 = Some e ->
        basic_code e = Some NETWORK_CONNECTION_ERROR
        /\ exists cause,
             e = BasicError NETWORK_CONNECTION_ERROR "loader#defaultLoader"
                   (network_message u cause)).
Proof.
  rewrite network_unfold. repeat split.
  - intros w1 r e -> Hr. destruct r as [[?|?]|?]; simpl in Hr; by simplify_eq.
  - intros w1 response w2 r e -> -> Hr.
    destruct r as [[?|?]|?]; simpl in Hr; by simplify_eq.
  - by intros w1 response w2 d -> ->.
  - destruct (fetch u w) as [w1 [[response|e']|e']]; simpl in *;
      [destruct (Response_json response w1) as [w2 [[d|e']|e']]; simpl in *|..];
      by simplify_eq.
  - destruct (fetch u w) as [w1 [[response|e']|e']]; simpl in *;
      [destruct (Response_json response w1) as [w2 [[d|e']|e']]; simpl in *|..];
      intros; simplify_eq; eauto.
Qed.

(** ** The JSON-LD helpers *)

Lemma delete_property_idemp k o :
  delete_property k (delete_property k o) = delete_property k o.
Proof.
  induction o as [|[k0 v0] o IH]; simpl; [done|].
  destruct (String.eqb k k0) eqn:E; simpl; rewrite ?E, IH; done.
Qed.

Lemma async_return_await {St A} (m : Eff St (promise A)) (s : St) :
  async (let! p := m in await p)%eff s = ((m s).1, Returned (settle (m s).2)).
Proof.
  unfold async, bind, await, ret, throw.
  destruct (m s) as [s' [[a|e]|e]]; reflexivity.
Qed.

Lemma canonize_unfold (input : object) (options : Canonize) (w : World) :
  canonize input options w
    = ((jsonld_canonize input options w).1,
       Returned (settle (jsonld_canonize input options w).2)).
Proof. unfold canonize. apply async_return_await. Qed.

Lemma bind_returned {St A B} (m : Eff St A) (k : A -> Eff St B) s s' a :
  m s = (s', Returned a) -> bind m k s = k a s'.
Proof. unfold bind. by intros ->. Qed.

Lemma with_object_lookup (s : store) (r : ref) (o : object) :
  heap (with_object s r o) !! r = Some o.
Proof. apply lookup_insert_eq. Qed.

Lemma with_object_twice (s : store) (r : ref) (o o' : object) :
  with_object (with_object s r o) r o' = with_object s r o'.
Proof. unfold with_object. simpl. by rewrite insert_insert_eq. Qed.

Lemma update_object_live (s : store) (r : ref) (o : object) f :
  heap s !! r = Some o -> update_object r f s = (with_object s r (f o), Returned tt).
Proof. unfold update_object. by intros ->. Qed.

Lemma read_object_live (s : store) (r : ref) (o : object) :
  heap s !! r = Some o -> read_object r s = (s, Returned o).
Proof. unfold read_object. by intros ->. Qed.

(** [canonizeProof] on a live reference: the object is overwritten by its
    stripped form, and the primitive runs once, on that form. *)
Lemma canonizeProof_unfold (s : store) (p : ref) (o : object) (l : Loader) :
  heap s !! p = Some o ->
  canonizeProof p l s
    = ({| heap := <[p := stripped_proof o]> (heap s);
          world := (jsonld_canonize (stripped_proof o) (proof_options l) (world s)).1 |},
       Returned
         (settle (jsonld_canonize (stripped_proof o) (proof_options l) (world s)).2)).
Proof.
  intros Hp. unfold canonizeProof, async.
  erewrite bind_returned by (by apply update_object_live).
  erewrite bind_returned by (apply update_object_live, with_object_lookup).
  rewrite with_object_twice.
  erewrite bind_returned by (apply update_object_live, with_object_lookup).
  rewrite with_object_twice.
  erewrite bind_returned by (apply read_object_live, with_object_lookup).
  fold (stripped_proof o).
  unfold bind, lift_world, await, ret, throw. rewrite canonize_unfold. simpl.
  destruct (jsonld_canonize (stripped_proof o) (proof_options l) (world s))
    as [w' [[a|e]|e]]; reflexivity.
Qed.

Lemma stripped_proof_context o :
  get_property "@context" (stripped_proof o) = Some (JString SECURITY_V2).
Proof.
  unfold stripped_proof.
  rewrite !get_delete_property_ne by done. apply get_set_property_eq.
Qed.

Lemma stripped_proof_nonce o : get_property "nonce" (stripped_proof o) = None.
Proof.
  unfold stripped_proof.
  rewrite get_delete_property_ne by done. apply get_delete_property_eq.
Qed.

Lemma stripped_proof_proofValue o :
  get_property "proofValue" (stripped_proof o) = None.
Proof. unfold stripped_proof. apply get_delete_property_eq. Qed.

Lemma stripped_proof_other k o :
  k <> "@context" -> k <> "nonce" -> k <> "proofValue" ->
  get_property k (stripped_proof o) = get_property k o.
Proof.
  intros. unfold stripped_proof.
  rewrite !get_delete_property_ne by done. by apply get_set_property_ne.
Qed.

Lemma stripped_proof_set_context c o :
  stripped_proof (set_property "@context" c o) = stripped_proof o.
Proof. unfold stripped_proof. by rewrite set_set_property_eq. Qed.

Lemma stripped_proof_set_nonce n o :
  stripped_proof (set_property "nonce" n o) = stripped_proof o.
Proof.
  unfold stripped_proof. f_equal.
  rewrite !(delete_set_property_ne "nonce" "@context") by done.
  by rewrite delete_set_property_eq.
Qed.

Lemma stripped_proof_delete_nonce o :
  stripped_proof (delete_property "nonce" o) = stripped_proof o.
Proof.
  unfold stripped_proof. f_equal.
  rewrite !(delete_set_property_ne "nonce" "@context") by done.
  by rewrite delete_property_idemp.
Qed.

Lemma stripped_proof_swap o :
  stripped_proof o
    = delete_property "nonce"
        (set_property "@context" (JString SECURITY_V2)
           (delete_property "proofValue" o)).
Proof.
  unfold stripped_proof. rewrite delete_delete_property.
  by rewrite (delete_set_property_ne "proofValue" "@context").
Qed.

Lemma stripped_proof_set_proofValue v o :
  stripped_proof (set_property "proofValue" v o) = stripped_proof o.
Proof. by rewrite !stripped_proof_swap, delete_set_property_eq. Qed.

Lemma stripped_proof_delete_proofValue o :
  stripped_proof (delete_property "proofValue" o) = stripped_proof o.
Proof. by rewrite !stripped_proof_swap, delete_property_idemp. Qed.

(** [canonizeProof] when the reference [p] denotes [o]. *)
Lemma canonizeProof_with_object (s : store) (p : ref) (o : object) (l : Loader) :
  canonizeProof p l (with_object s p o)
    = ({| heap := <[p := stripped_proof o]> (heap s);
          world := (jsonld_canonize (stripped_proof o) (proof_options l) (world s)).1 |},
       Returned
         (settle (jsonld_canonize (stripped_proof o) (proof_options l) (world s)).2)).
Proof.
  rewrite (canonizeProof_unfold _ p o) by apply with_object_lookup.
  simpl. by rewrite insert_insert_eq.
Qed.

(** C1.  On a proof object [o], [canonizeProof] writes the security context
    URL [https://w3id.org/security/v2] to [@context], then deletes [nonce],
    then deletes [proofValue], all three on the caller's object, which is
    left in that state, and hands the object so obtained, with the fixed
    options, to the canonicalisation primitive, which runs once.
    That object has the security context as [@context] and neither [nonce]
    nor [proofValue], so the result is the same whatever [@context],
    [nonce] and [proofValue] the caller's proof carried, and the same as
    for the proof without [nonce] and [proofValue]. *)
Theorem canonizeProof_canonizes_stripped_proof
    (s : store) (p : ref) (o : object) (l : Loader) :
  heap s !! p = Some o ->
  let input :=
    delete_property "proofValue"
      (delete_property "nonce"
         (set_property "@context" (JString "https://w3id.org/security/v2") o)) in
  let primitive := jsonld_canonize input (proof_options l) (world s) in
  heap (canonizeProof p l s).1 = <[p := input]> (heap s)
  /\ heap (canonizeProof p l s).1 !! p = Some input
  /\ (canonizeProof p l s).2 = Returned (settle primitive.2)
  /\ world (canonizeProof p l s).1 = primitive.1
  /\ get_property "@context" input = Some (JString "https://w3id.org/security/v2")
  /\ get_property "nonce" input = None
  /\ get_property "proofValue" input = None
  /\ (forall c n v : value,
        let tampered :=
          set_property "proofValue" v
            (set_property "nonce" n (set_property "@context" c o)) in
        (canonizeProof p l (with_object s p tampered)).2 = (canonizeProof p l s).2
        /\ world (canonizeProof p l (with_object s p tampered)).1
             = world (canonizeProof p l s).1)
  /\ (let bare := delete_property "proofValue" (delete_property "nonce" o) in
      (canonizeProof p l (with_object s p bare)).2 = (canonizeProof p l s).2
      /\ world (canonizeProof p l (with_object s p bare)).1
           = world (canonizeProof p l s).1).
Proof.
  intros Hp input primitive.
  change input with (stripped_proof o) in *. subst primitive.
  rewrite (canonizeProof_unfold s p o l Hp). simpl.
  split; [done|]. split; [apply lookup_insert_eq|].
  repeat split.
  - apply stripped_proof_context.
  - apply stripped_proof_nonce.
  - apply stripped_proof_proofValue.
  - rewrite canonizeProof_with_object. simpl.
    by rewrite stripped_proof_set_proofValue, stripped_proof_set_nonce,
      stripped_proof_set_context.
  - rewrite canonizeProof_with_object. simpl.
    by rewrite stripped_proof_set_proofValue, stripped_proof_set_nonce,
      stripped_proof_set_context.
  - rewrite canonizeProof_with_object. simpl.
    by rewrite stripped_proof_delete_proofValue, stripped_proof_delete_nonce.
  - rewrite canonizeProof_with_object. simpl.
    by rewrite stripped_proof_delete_proofValue, stripped_proof_delete_nonce.
Qed.

(** C2.  The whole run of [canonizeProof] (the promise it returns, the
    world and the heap it leaves) is the same on a proof whose
    [proofValue] is the string [v] as on the proof without [proofValue],
    and the same for any two strings put in [proofValue]. *)
Theorem canonizeProof_ignores_proofValue
    (s : store) (p : ref) (o : object) (v : string) (l : Loader) :
  canonizeProof p l (with_object s p (set_property "proofValue" (JString v) o))
    = canonizeProof p l (with_object s p (delete_property "proofValue" o))
  /\ (forall v' : string,
        canonizeProof p l (with_object s p (set_property "proofValue" (JString v) o))
          = canonizeProof p l
              (with_object s p (set_property "proofValue" (JString v') o))).
Proof.
  split; [|intros v']; rewrite !canonizeProof_with_object;
    by rewrite ?stripped_proof_set_proofValue, ?stripped_proof_delete_proofValue.
Qed.

(** C9.  [canonizeProof] writes to the caller's object: once the call is
    over, however the promise settles, the object behind the reference has
    the security context as [@context], no [nonce] and no [proofValue];
    its other properties and the other objects of the heap are as before.
    Nothing is put back, so a proof that carried a [nonce], a [proofValue]
    or another [@context] is changed for the caller. *)
Theorem canonizeProof_mutates_its_argument
    (s : store) (p : ref) (o : object) (l : Loader) :
  heap s !! p = Some o ->
  let s' := (canonizeProof p l s).1 in
  exists o',
    heap s' !! p = Some o'
    /\ o' = delete_property "proofValue"
              (delete_property "nonce"
                 (set_property "@context" (JString SECURITY_V2) o))
    /\ get_property "@context" o' = Some (JString SECURITY_V2)
    /\ get_property "nonce" o' = None
    /\ get_property "proofValue" o' = None
    /\ (forall k, k <> "@context" -> k <> "nonce" -> k <> "proofValue" ->
                  get_property k o' = get_property k o)
    /\ (forall q, q <> p -> heap s' !! q = heap s !! q)
    /\ (get_property "@context" o <> Some (JString SECURITY_V2)
         \/ is_Some (get_property "nonce" o)
         \/ is_Some (get_property "proofValue" o) ->
         heap s' !! p <> heap s !! p).
Proof.
  intros Hp s'. subst s'. rewrite (canonizeProof_unfold s p o l Hp). simpl.
  exists (stripped_proof o). rewrite lookup_insert_eq.
  split; [done|]. split; [done|].
  split; [apply stripped_proof_context|].
  split; [apply stripped_proof_nonce|].
  split; [apply stripped_proof_proofValue|].
  split; [intros k; apply stripped_proof_other|].
  split.
  - intros q Hq. by rewrite lookup_insert_ne.
  - rewrite Hp. intros Hchanged [= Heq].
    pose proof (stripped_proof_context o) as Hc.
    pose proof (stripped_proof_nonce o) as Hn.
    pose proof (stripped_proof_proofValue o) as Hv.
    rewrite Heq in Hc, Hn, Hv.
    destruct Hchanged as [H|[[x H]|[x H]]]; congruence.
Qed.

Lemma array_includes_string_In (c : string) (items : list value) :
  array_includes_string c items = true <-> In (JString c) items.
Proof.
  unfold array_includes_string. rewrite existsb_exists. split.
  - intros (item & Hin & Heq). destruct item; simpl in Heq; try done.
    apply String.eqb_eq in Heq. by subst.
  - intros Hin. exists (JString c). split; [done|]. simpl. apply String.eqb_refl.
Qed.

(** C6.  [includeContext d c] is true exactly when the [@context] of [d]
    is the string [c] itself or an array with the string [c] among its
    members; otherwise it is false. *)
Theorem includeContext_iff (d : object) (c : string) :
  (includeContext d c = true <->
     get_property "@context" d = Some (JString c)
     \/ exists items, get_property "@context" d = Some (JArray items)
                      /\ In (JString c) items)
  /\ (includeContext d c = false <->
       get_property "@context" d <> Some (JString c)
       /\ forall items, get_property "@context" d = Some (JArray items) ->
                        ~ In (JString c) items).
Proof.
  assert (Htrue : includeContext d c = true <->
     get_property "@context" d = Some (JString c)
     \/ exists items, get_property "@context" d = Some (JArray items)
                      /\ In (JString c) items).
  { unfold includeContext.
    destruct (get_property "@context" d) as [[| | |s'|items|]|] eqn:E; simpl;
      try (split; [done|intros [?|(? & ? & ?)]; done]).
    - destruct (String.eqb c s') eqn:Ec.
      + apply String.eqb_eq in Ec. subst. split; [by left|done].
      + apply String.eqb_neq in Ec.
        split; [done|intros [?|(? & ? & ?)]; [congruence|done]].
    - rewrite array_includes_string_In. split.
      + intros Hin. right. by exists items.
      + intros [?|(items' & ? & ?)]; [done|]. by simplify_eq. }
  split; [exact Htrue|].
  rewrite <- not_true_iff_false, Htrue. split.
  - intros Hno. split; [by intros ?; apply Hno; left|].
    intros items ? ?. apply Hno. right. by exists items.
  - intros [Hs Ha] [?|(items & ? & ?)]; [done|]. by apply (Ha items).
Qed.

(** C7.  Whatever the document and the options, the base [createProof]
    and the base [verifyProof] throw a [DataIntegrityError] whose code is
    [NOT_IMPLEMENTED_ERROR]; neither delivers a proof or a result. *)
Theorem base_cryptosuite_not_implemented
    (inputDocument securedDocument : object)
    (createOptions : CreateOptions) (verifyOptions : VerifyOptions) (w : World) :
  createProof inputDocument createOptions w
    = (w, Threw (DataIntegrityError NOT_IMPLEMENTED_ERROR "Cryptosuite.createProof"
                   "The createProof method must be implemented by a subclass."))
  /\ verifyProof securedDocument verifyOptions w
      = (w, Threw (DataIntegrityError NOT_IMPLEMENTED_ERROR "Cryptosuite.verifyProof"
                     "The verifyProof method must be implemented by a subclass."))
  /\ delivered (createProof inputDocument createOptions w).2 = None
  /\ delivered (verifyProof securedDocument verifyOptions w).2 = None
  /\ (exists e, failure (createProof inputDocument createOptions w).2 = Some e
                /\ integrity_code e = Some NOT_IMPLEMENTED_ERROR)
  /\ (exists e, failure (verifyProof securedDocument verifyOptions w).2 = Some e
                /\ integrity_code e = Some NOT_IMPLEMENTED_ERROR).
Proof.
  unfold createProof, verifyProof, throw; simpl.
  repeat split; eexists; split; reflexivity.
Qed.

(** [expandController], case by case on what the framing does. *)
Lemma expandController_unfold
    (document : object) (controller term verificationId : string)
    (l : Loader) (w : World) :
  expandController document controller term verificationId l w =
    match jsonld_frame document (controller_frame controller term verificationId)
            (controller_options l) w with
    | (w', Returned (Resolved (Some framed))) => (w', Returned (Resolved framed))
    | (w', Returned (Resolved None)) =>
        (w', Returned (RejectedWith (JsError "Error" (controller_message controller))))
    | (w', Returned (RejectedWith e)) | (w', Threw e) =>
        (w', Returned (RejectedWith e))
    end.
Proof.
  unfold expandController, async, bind, await, ret, throw.
  destruct (jsonld_frame _ _ _ w) as [w' [[[framed|]|e]|e]]; reflexivity.
Qed.

(** C8.  [expandController] fails on its own account only when the framing
    resolves to nothing, [null] or [undefined]: then, and only then, it
    rejects with the plain [Error] "Controller <controller> not found.".
    Whatever object the framing resolves to is handed back as it is, whether
    or not it holds a match.  So with a framing that always resolves to an
    object, as [jsonld.frame] does, a verification method that the
    controller document does not list under the term makes no failure. *)
Theorem expandController_returns_what_framing_resolves_to
    (document : object) (controller term verificationId : string)
    (l : Loader) (w : World) :
  let framing :=
    jsonld_frame document (controller_frame controller term verificationId)
      (controller_options l) w in
  (forall framed,
      framing.2 = Returned (Resolved (Some framed)) ->
      (expandController document controller term verificationId l w).2
        = Returned (Resolved framed))
  /\ (forall e,
        failure (expandController document controller term verificationId l w).2
          = Some e ->
        failure framing.2 = Some e
        \/ (framing.2 = Returned (Resolved None)
            /\ e = JsError "Error" ("Controller " ++ controller ++ " not found.")))
  /\ ((forall w', framing <> (w', Returned (Resolved None))) ->
      failure (expandController document controller term verificationId l w).2
        = failure framing.2).
Proof.
  intros framing. subst framing. rewrite expandController_unfold.
  destruct (jsonld_frame _ _ _ w) as [w' [[[framed|]|e']|e']]; simpl.
  - split; [by intros ? [= <-]|]. split; [done|done].
  - split; [done|]. split.
    + intros e [= <-]. by right.
    + intros Hnever. by destruct (Hnever w').
  - split; [done|]. split; [intros e He; by left|done].
  - split; [done|]. split; [intros e He; by left|done].
Qed.

(** ** Further properties of the loaders *)

(** X1.  Wrapping twice is wrapping once: [extend (extend f)] is [extend f]
    on every URL, and so [extend basic] is [basic]. *)
Theorem extend_idempotent (f : Loader) (u : URI) :
  extend (extend f) u = extend f u
  /\ extend basic u = basic u.
Proof.
  unfold basic. split; unfold extend; by destruct (URL_CONTEXT_MAP !! u).
Qed.

(** X2.  The wrapper brings no failure of its own: when [extend f] fails on
    a URL, the URL is not in the built-in table and the failure is the one
    of [f]; when it delivers a document, the document is the table's, under
    the URL asked for, or the one [f] delivered. *)
Theorem extend_fails_only_where_wrapped_fails (f : Loader) (u : URI) (w : World) :
  (forall e,
      failure (extend f u w).2 = Some e ->
      (u ∉ dom URL_CONTEXT_MAP) /\ failure (f u w).2 = Some e)
  /\ (forall d,
        delivered (extend f u w).2 = Some d ->
        (URL_CONTEXT_MAP !! u = Some (document d)
         /\ documentUrl d = u /\ contextUrl d = None)
        \/ ((u ∉ dom URL_CONTEXT_MAP) /\ delivered (f u w).2 = Some d)).
Proof.
  unfold extend. split.
  - intros e. destruct (URL_CONTEXT_MAP !! u) as [d|] eqn:E; simpl; [done|].
    intros He. split; [by apply not_elem_of_dom|done].
  - intros d. destruct (URL_CONTEXT_MAP !! u) as [d'|] eqn:E; simpl.
    + intros [= <-]. by left.
    + intros Hd. right. split; [by apply not_elem_of_dom|done].
Qed.

(** X3.  The network loader behind the wrapper: [extend network] never
    throws at the call, it always returns a promise; the promise is rejected
    only for a URL outside the built-in table, and then with
    [NETWORK_CONNECTION_ERROR]; a URL of the table leaves the world, the
    network included, as it was. *)
Theorem extend_network_fails_off_table_only (u : URI) (w : World) :
  (exists p, (extend network u w).2 = Returned p)
  /\ (forall e,
        failure (extend network u w).2 = Some e ->
        (u ∉ dom URL_CONTEXT_MAP) /\ basic_code e = Some NETWORK_CONNECTION_ERROR)
  /\ (u ∈ dom URL_CONTEXT_MAP -> (extend network u w).1 = w).
Proof.
  unfold extend. destruct (URL_CONTEXT_MAP !! u) as [d|] eqn:E.
  - split; [by eexists|]. split; [done|done].
  - split; [|split].
    + rewrite network_unfold.
      destruct (fetch u w) as [w1 [[response|e']|e']]; simpl;
        [destruct (Response_json response w1) as [w2 [[d|e']|e']]; simpl|..];
        by eexists.
    + intros e He. split; [by apply not_elem_of_dom|].
      revert He. rewrite network_unfold.
      destruct (fetch u w) as [w1 [[response|e']|e']]; simpl;
        [destruct (Response_json response w1) as [w2 [[d|e']|e']]; simpl|..];
        by intros [= <-].
    + intros [d Hd]%elem_of_dom. congruence.
Qed.

(** ** Further properties of the JSON-LD helpers *)

(** X4.  [canonizeDocument] runs the primitive once, with the algorithm
    URDNA2015, the N-Quads format, the loader and the flag it was given; it
    never throws at the call: what the primitive delivers is delivered, and
    whatever the primitive throws or rejects with is the rejection of the
    promise returned. *)
Theorem canonizeDocument_passes_primitive_on
    (input : object) (l : Loader) (skipExpansion : bool) (w : World) :
  let primitive :=
    jsonld_canonize input
      {| algorithm := "URDNA2015";
         format := "application/n-quads";
         documentLoader := l;
         skipExpansion := skipExpansion |} w in
  (canonizeDocument input l skipExpansion w).1 = primitive.1
  /\ (exists p, (canonizeDocument input l skipExpansion w).2 = Returned p)
  /\ delivered (canonizeDocument input l skipExpansion w).2 = delivered primitive.2
  /\ failure (canonizeDocument input l skipExpansion w).2 = failure primitive.2.
Proof.
  intros primitive. subst primitive. unfold canonizeDocument.
  rewrite async_return_await, canonize_unfold. simpl.
  split; [done|]. split; [by eexists|].
  destruct (jsonld_canonize _ _ w) as [w' [[a|e]|e]]; done.
Qed.

Lemma stripped_proof_idemp o : stripped_proof (stripped_proof o) = stripped_proof o.
Proof.
  unfold stripped_proof at 2.
  by rewrite stripped_proof_delete_proofValue, stripped_proof_delete_nonce,
    stripped_proof_set_context.
Qed.

Lemma set_property_absent k v o :
  get_property k o = None -> set_property k v o = (o ++ [(k, v)])%list.
Proof.
  induction o as [|[k0 v0] o IH]; simpl; [done|].
  destruct (String.eqb k k0); [done|]. intros H. by rewrite IH.
Qed.

Lemma delete_property_app k o1 o2 :
  delete_property k (o1 ++ o2)%list
    = (delete_property k o1 ++ delete_property k o2)%list.
Proof.
  induction o1 as [|[k0 v0] o1 IH]; simpl; [done|].
  destruct (String.eqb k k0); by rewrite IH.
Qed.

Lemma set_property_keys k v o :
  is_Some (get_property k o) -> map fst (set_property k v o) = map fst o.
Proof.
  induction o as [|[k0 v0] o IH]; simpl; [by intros [? ?]|].
  destruct (String.eqb k k0) eqn:E; simpl.
  - apply String.eqb_eq in E. by subst.
  - intros H. by rewrite IH.
Qed.

Lemma delete_property_keys k o1 o2 :
  map fst o1 = map fst o2 ->
  map fst (delete_property k o1) = map fst (delete_property k o2).
Proof.
  revert o2. induction o1 as [|[k1 v1] o1 IH]; intros [|[k2 v2] o2]; simpl;
    try done.
  intros [= <- H]. destruct (String.eqb k k1); simpl; by rewrite (IH o2).
Qed.

(** X5.  [canonizeProof] is [canonizeDocument], with expansion, of the proof
    as the three writes leave it: the promise returned and the world after
    the call are the same. *)
Theorem canonizeProof_is_canonizeDocument_of_stripped
    (s : store) (p : ref) (o : object) (l : Loader) :
  heap s !! p = Some o ->
  let stripped :=
    delete_property "proofValue"
      (delete_property "nonce"
         (set_property "@context" (JString SECURITY_V2) o)) in
  (canonizeProof p l s).2 = (canonizeDocument stripped l false (world s)).2
  /\ world (canonizeProof p l s).1 = (canonizeDocument stripped l false (world s)).1.
Proof.
  intros Hp stripped. change stripped with (stripped_proof o).
  rewrite (canonizeProof_unfold s p o l Hp). unfold canonizeDocument.
  rewrite async_return_await, canonize_unfold. simpl.
  fold (proof_options l). split; [|done].
  by destruct (jsonld_canonize (stripped_proof o) (proof_options l) (world s))
    as [w' [[a|e]|e]].
Qed.

(** X6.  A second call of [canonizeProof] on the same proof hands the
    primitive the very object the first call handed it, and leaves the heap
    as the first call left it. *)
Theorem canonizeProof_twice
    (s : store) (p : ref) (o : object) (l : Loader) :
  heap s !! p = Some o ->
  let s1 := (canonizeProof p l s).1 in
  let input :=
    delete_property "proofValue"
      (delete_property "nonce"
         (set_property "@context" (JString SECURITY_V2) o)) in
  heap (canonizeProof p l s1).1 = heap s1
  /\ (canonizeProof p l s).2
      = Returned (settle (jsonld_canonize input (proof_options l) (world s)).2)
  /\ (canonizeProof p l s1).2
      = Returned (settle (jsonld_canonize input (proof_options l) (world s1)).2).
Proof.
  intros Hp s1 input. change input with (stripped_proof o). subst s1.
  rewrite (canonizeProof_unfold s p o l Hp). simpl.
  rewrite (canonizeProof_unfold _ p (stripped_proof o) l)
    by (simpl; apply lookup_insert_eq).
  simpl. rewrite stripped_proof_idemp. by rewrite insert_insert_eq.
Qed.

(** X7.  [canonizeProof] leaves the properties of the proof other than
    [@context], [nonce] and [proofValue] in the order they had: with
    [@context] set aside, the object after the call is the object before
    the call without these three. *)
Theorem canonizeProof_keeps_other_properties_in_order
    (s : store) (p : ref) (o : object) (l : Loader) :
  heap s !! p = Some o ->
  exists o',
    heap (canonizeProof p l s).1 !! p = Some o'
    /\ delete_property "@context" o'
        = delete_property "@context"
            (delete_property "nonce" (delete_property "proofValue" o)).
Proof.
  intros Hp. rewrite (canonizeProof_unfold s p o l Hp). simpl.
  exists (stripped_proof o). rewrite lookup_insert_eq. split; [done|].
  unfold stripped_proof.
  rewrite (delete_delete_property "@context" "proofValue").
  rewrite (delete_delete_property "@context" "nonce").
  rewrite delete_set_property_eq.
  rewrite (delete_delete_property "nonce" "@context").
  rewrite (delete_delete_property "proofValue" "@context").
  by rewrite (delete_delete_property "proofValue" "nonce").
Qed.

(** X8.  Where [canonizeProof] puts [@context]: on a proof without
    [@context] the security context becomes the last property, after the
    others; on a proof with one, it takes the place of the old value, so the
    property names after the call are those before it without [nonce] and
    [proofValue], in the same order. *)
Theorem canonizeProof_context_position
    (s : store) (p : ref) (o : object) (l : Loader) :
  heap s !! p = Some o ->
  exists o',
    heap (canonizeProof p l s).1 !! p = Some o'
    /\ (get_property "@context" o = None ->
        o' = (delete_property "proofValue" (delete_property "nonce" o)
                ++ [("@context", JString SECURITY_V2)])%list)
    /\ (is_Some (get_property "@context" o) ->
        map fst o'
          = map fst (delete_property "proofValue" (delete_property "nonce" o))).
Proof.
  intros Hp. rewrite (canonizeProof_unfold s p o l Hp). simpl.
  exists (stripped_proof o). rewrite lookup_insert_eq. split; [done|].
  unfold stripped_proof. split.
  - intros Habsent. rewrite (set_property_absent _ _ _ Habsent).
    by rewrite !delete_property_app.
  - intros Hpresent. do 2 apply delete_property_keys.
    by apply set_property_keys.
Qed.

(** X9.  When the primitive fails, by throwing or by rejecting, with an
    error [e], the promise of [canonizeProof] is rejected with [e], and the
    caller's proof has been rewritten all the same. *)
Theorem canonizeProof_failure_keeps_the_writes
    (s : store) (p : ref) (o : object) (l : Loader) (e : thrown) :
  heap s !! p = Some o ->
  failure (jsonld_canonize (stripped_proof o) (proof_options l) (world s)).2 = Some e ->
  (canonizeProof p l s).2 = Returned (RejectedWith e)
  /\ heap (canonizeProof p l s).1 !! p
      = Some (delete_property "proofValue"
                (delete_property "nonce"
                   (set_property "@context" (JString SECURITY_V2) o))).
Proof.
  intros Hp He. rewrite (canonizeProof_unfold s p o l Hp). simpl.
  rewrite lookup_insert_eq. split; [|done].
  destruct (jsonld_canonize (stripped_proof o) (proof_options l) (world s))
    as [w' [[a|e']|e']]; simpl in *; by simplify_eq.
Qed.

(** X10.  After [canonizeProof] the caller's proof declares the security
    context and no other: [includeContext] on it is true for
    [SECURITY_V2] and false for every other context URL. *)
Theorem includeContext_after_canonizeProof
    (s : store) (p : ref) (o : object) (l : Loader) :
  heap s !! p = Some o ->
  exists o',
    heap (canonizeProof p l s).1 !! p = Some o'
    /\ includeContext o' SECURITY_V2 = true
    /\ forall c, c <> SECURITY_V2 -> includeContext o' c = false.
Proof.
  intros Hp. rewrite (canonizeProof_unfold s p o l Hp). simpl.
  exists (stripped_proof o). rewrite lookup_insert_eq. split; [done|].
  unfold includeContext. rewrite stripped_proof_context.
  unfold strict_equals_string. split.
  - by rewrite String.eqb_refl.
  - intros c Hc. apply String.eqb_neq in Hc. by rewrite Hc.
Qed.

(** X11.  [includeContext] looks at the [@context] property and at nothing
    else: writing or deleting any other property does not change its
    answer; once [@context] is set to the string [c] the answer for [c] is
    true, and once [@context] is deleted the answer is false. *)
Theorem includeContext_depends_on_context_only
    (d : object) (c k : string) (v : value) :
  k <> "@context" ->
  includeContext (set_property k v d) c = includeContext d c
  /\ includeContext (delete_property k d) c = includeContext d c
  /\ includeContext (set_property "@context" (JString c) d) c = true
  /\ includeContext (delete_property "@context" d) c = false.
Proof.
  intros Hk. unfold includeContext.
  rewrite get_set_property_ne, get_delete_property_ne by done.
  rewrite get_set_property_eq, get_delete_property_eq.
  repeat split. unfold strict_equals_string. by rewrite String.eqb_refl.
Qed.

(** X12.  [expandController] never throws at the call and runs the framing
    once; when the framing itself fails, by throwing or by rejecting, with
    an error [e], the promise is rejected with that same [e], not with the
    "not found" error. *)
Theorem expandController_passes_framing_failure
    (document : object) (controller term verificationId : string)
    (l : Loader) (w : World) :
  let framing :=
    jsonld_frame document (controller_frame controller term verificationId)
      (controller_options l) w in
  (exists p,
      (expandController document controller term verificationId l w).2 = Returned p)
  /\ (expandController document controller term verificationId l w).1 = framing.1
  /\ (forall e,
        failure framing.2 = Some e ->
        (expandController document controller term verificationId l w).2
          = Returned (RejectedWith e)).
Proof.
  intros framing. subst framing. rewrite expandController_unfold.
  destruct (jsonld_frame _ _ _ w) as [w' [[[framed|]|e']|e']]; simpl;
    (split; [by eexists|]); (split; [done|]); intros e He; by simplify_eq.
Qed.

(** X13.  The frame [expandController] builds always asks for the
    verification method, not embedded, under the key [term].  With a term
    other than [@context] and [id] it also carries the security context and
    the controller as [id]: after them when the term is an ordinary key,
    before them when the term is an array index.  The term [id] overwrites
    the controller, and the term [@context] overwrites the security context:
    the frame then has two properties only. *)
Theorem controller_frame_computed_key (controller term verificationId : string) :
  let method :=
    JObject [("@embed", JString "@never"); ("id", JString verificationId)] in
  get_property term (controller_frame controller term verificationId) = Some method
  /\ (term <> "@context" -> term <> "id" -> is_array_index term = false ->
      controller_frame controller term verificationId
        = [("@context", JString SECURITY_V2);
           ("id", JString controller);
           (term, method)])
  /\ (is_array_index term = true ->
      controller_frame controller term verificationId
        = [(term, method);
           ("@context", JString SECURITY_V2);
           ("id", JString controller)])
  /\ (term = "id" ->
      controller_frame controller term verificationId
        = [("@context", JString SECURITY_V2); ("id", method)])
  /\ (term = "@context" ->
      controller_frame controller term verificationId
        = [("@context", method); ("id", JString controller)]).
Proof.
  intros method. unfold controller_frame. fold method.
  destruct (is_array_index term) eqn:Eindex.
  - split; [simpl; by rewrite String.eqb_refl|].
    split; [done|]. split; [done|].
    split; intros ->; discriminate Eindex.
  - split; [apply get_set_property_eq|]. split; [|split; [done|split]].
    + intros Hc%String.eqb_neq Hi%String.eqb_neq _. simpl. by rewrite Hc, Hi.
    + by intros ->.
    + by intros ->.
Qed.

(** [expandVerificationMethod], case by case on what the framing does. *)
Lemma expandVerificationMethod_unfold (method : string) (l : Loader) (w : World) :
  expandVerificationMethod method l w =
    match jsonld_frame_url method (method_frame method) (method_options l) w with
    | (w', Returned (Resolved (Some framed))) => (w', Returned (Resolved framed))
    | (w', Returned (Resolved None)) =>
        (w', Returned (RejectedWith (JsError "Error" (method_message method))))
    | (w', Returned (RejectedWith e)) | (w', Threw e) =>
        (w', Returned (RejectedWith e))
    end.
Proof.
  unfold expandVerificationMethod, async, bind, await, ret, throw.
  destruct (jsonld_frame_url _ _ _ w) as [w' [[[framed|]|e]|e]]; reflexivity.
Qed.

(** X14.  [expandVerificationMethod] frames the document at the URL of the
    method, with full embedding, the method as [id] and the security context
    as expansion context.  It never throws at the call.  When the framing
    resolves to nothing the promise is rejected with a plain [Error] whose
    message is "Verification method <method> not found." and which carries
    no error code; when the framing resolves to a document the promise
    resolves to it; a failure of the framing is passed on as it is. *)
Theorem expandVerificationMethod_outcomes (method : string) (l : Loader) (w : World) :
  let framing :=
    jsonld_frame_url method
      [("@context", JString SECURITY_V2);
       ("@embed", JString "@always");
       ("id", JString method)]
      {| method_documentLoader := l;
         method_compactToRelative := false;
         expandContext := SECURITY_V2 |} w in
  (exists p, (expandVerificationMethod method l w).2 = Returned p)
  /\ (expandVerificationMethod method l w).1 = framing.1
  /\ (framing.2 = Returned (Resolved None) ->
      (expandVerificationMethod method l w).2
        = Returned (RejectedWith
                      (JsError "Error"
                         ("Verification method " ++ method ++ " not found.")))
      /\ forall e, failure (expandVerificationMethod method l w).2 = Some e ->
                   is_coded_error e = false)
  /\ (forall framed,
        framing.2 = Returned (Resolved (Some framed)) ->
        (expandVerificationMethod method l w).2 = Returned (Resolved framed))
  /\ (forall e,
        failure framing.2 = Some e ->
        (expandVerificationMethod method l w).2 = Returned (RejectedWith e)).
Proof.
  intros framing. subst framing. rewrite expandVerificationMethod_unfold.
  fold (method_frame method). fold (method_options l).
  destruct (jsonld_frame_url _ _ _ w) as [w' [[[framed|]|e']|e']]; simpl;
    (split; [by eexists|]); (split; [done|]);
    (split; [try done|split; [intros; by simplify_eq|intros; by simplify_eq]]).
  intros _. split; [done|]. by intros e [= <-].
Qed.

End Platform.

Arguments network {World Response} fetch Response_json toString url _.
Arguments fallback {World} url _.
Arguments extend {World} URL_CONTEXT_MAP loader url _.
Arguments basic {World} URL_CONTEXT_MAP url _.
Arguments canonizeProof {World} jsonld_canonize proof loader _.
Arguments expandController {World} jsonld_frame document controller term verificationId loader _.
Arguments with_object {World} s r o.
Arguments heap {World} s.
Arguments world {World} s.
Arguments canonizeDocument {World} jsonld_canonize input loader skipExpansion _.
Arguments expandVerificationMethod {World} jsonld_frame_url method loader _.
Arguments proof_options {World} loader.

(** ** A small platform to run the program on *)

(** The world counts the requests sent to the network. *)
Definition sample_fetch : URI -> Eff nat (promise string) :=
  fun url requests =>
    if String.eqb url "https://example.org/down"
    then (S requests, Returned (RejectedWith (JsError "TypeError" "fetch failed")))
    else if String.eqb url "https://example.org/page"
    then (S requests, Returned (Resolved "<html>"))
    else (S requests, Returned (Resolved "{}")).

Definition sample_json : string -> Eff nat (promise value) :=
  fun body requests =>
    if String.eqb body "{}"
    then (requests, Returned (Resolved (JObject [])))
    else (requests, Returned (RejectedWith (JsError "SyntaxError" "Unexpected token"))).

Definition sample_toString (e : thrown) : string :=
  match e with
  | JsError name message => name ++ ": " ++ message
  | BasicError _ _ message | DataIntegrityError _ _ message => "Error: " ++ message
  end.

Definition sample_table : gmap string value :=
  {[ SECURITY_CONTEXT_V2_URL := JObject [("@context", JObject [])] ]}.

(** A canonicaliser that lists the property names it was given. *)
Definition sample_canonize : object -> Canonize nat -> Eff nat (promise string) :=
  fun input _ requests =>
    (requests, Returned (Resolved (String.concat "," (map fst input)))).

(** A framing that, as [jsonld.frame] does, always resolves to an object:
    the node that matches the frame, under the frame's context, or the
    context alone when no node matches. *)
Definition sample_compacting_frame
  : object -> object -> FrameOptions nat -> Eff nat (promise (option object)) :=
  fun document frame _ requests =>
    match frame with
    | [("@context", context); ("id", JString controller);
       (term, JObject [_; ("id", JString method)])] =>
        let listed :=
          match get_property term document with
          | Some (JArray items) => array_includes_string method items
          | listed => strict_equals_string method listed
          end in
        if strict_equals_string controller (get_property "id" document) && listed
        then (requests,
              Returned (Resolved (Some [("@context", context);
                                        ("id", JString controller);
                                        (term, JString method)])))
        else (requests, Returned (Resolved (Some [("@context", context)])))
    | _ => (requests, Returned (Resolved (Some [])))
    end.

Definition sample_proof : object :=
  [("type", JString "DataIntegrityProof");
   ("@context", JString CREDENTIAL_CONTEXT_V2_URL);
   ("proofPurpose", JString "assertionMethod");
   ("nonce", JString "n-0");
   ("proofValue", JString "z58DAdFfa9")].

Definition sample_store : store nat :=
  {| heap := {[ 1%positive := sample_proof ]}; world := 0 |}.

Definition sample_controller_document : object :=
  [("@context", JString SECURITY_CONTEXT_V2_URL);
   ("id", JString "did:example:alice");
   ("assertionMethod", JArray [JString "did:example:alice#key-1"])].

Definition sample_controller : object :=
  [("id", JString "did:example:alice");
   ("assertionMethod", JArray [JString "did:example:alice#key-1"])].

(** A canonicaliser that cannot load the context. *)
Definition sample_failing_canonize : object -> Canonize nat -> Eff nat (promise string) :=
  fun _ _ requests =>
    (S requests,
     Returned (RejectedWith (JsError "jsonld.InvalidUrl" "Dereferencing a URL failed."))).

(** A framing that throws before it returns a promise. *)
Definition sample_failing_frame
  : object -> object -> FrameOptions nat -> Eff nat (promise (option object)) :=
  fun _ _ _ requests =>
    (requests, Threw (JsError "jsonld.SyntaxError" "Invalid JSON-LD syntax.")).

(** A framing by URL that knows one verification method and cannot reach
    one host. *)
Definition sample_frame_url
  : URI -> object -> MethodFrameOptions nat -> Eff nat (promise (option object)) :=
  fun url frame _ requests =>
    if String.eqb url "did:example:alice#key-1"
    then (S requests,
          Returned (Resolved (Some [("id", JString url);
                                    ("type", JString "Multikey")])))
    else if String.eqb url "did:example:down#key-1"
    then (S requests,
          Returned (RejectedWith (JsError "jsonld.LoadDocumentError" "Could not load.")))
    else (S requests, Returned (Resolved None)).

(** A proof that declares no context. *)
Definition sample_bare_proof : object :=
  [("type", JString "DataIntegrityProof");
   ("nonce", JString "n-1");
   ("created", JString "2024-01-01T00:00:00Z")].

Definition sample_bare_store : store nat :=
  {| heap := {[ 1%positive := sample_proof; 2%positive := sample_bare_proof ]};
     world := 0 |}.

(** ** The program on small inputs *)

Example set_property_keeps_place :
  set_property "@context" (JString SECURITY_V2) sample_proof
    = [("type", JString "DataIntegrityProof");
       ("@context", JString "https://w3id.org/security/v2");
       ("proofPurpose", JString "assertionMethod");
       ("nonce", JString "n-0");
       ("proofValue", JString "z58DAdFfa9")].
Proof. reflexivity. Qed.

Example set_property_appends :
  set_property "@context" (JString SECURITY_V2) [("type", JString "DataIntegrityProof")]
    = [("type", JString "DataIntegrityProof");
       ("@context", JString "https://w3id.org/security/v2")].
Proof. reflexivity. Qed.

Example is_array_index_samples :
  map is_array_index ["0"; "5"; "4294967294"; "4294967295"; "05"; "1a"; "id"; ""]
    = [true; true; true; false; false; false; false; false].
Proof. vm_compute. reflexivity. Qed.

Example controller_frame_sample :
  controller_frame "did:example:alice" "assertionMethod" "did:example:alice#key-1"
    = [("@context", JString "https://w3id.org/security/v2");
       ("id", JString "did:example:alice");
       ("assertionMethod",
        JObject [("@embed", JString "@never");
                 ("id", JString "did:example:alice#key-1")])].
Proof. reflexivity. Qed.

Example includeContext_sole_value :
  includeContext [("@context", JString SECURITY_CONTEXT_V2_URL)]
    SECURITY_CONTEXT_V2_URL = true.
Proof. reflexivity. Qed.

Example includeContext_array_member :
  includeContext
    [("@context", JArray [JString CREDENTIAL_CONTEXT_V2_URL;
                          JString SECURITY_CONTEXT_V2_URL])]
    SECURITY_CONTEXT_V2_URL = true.
Proof. reflexivity. Qed.

Example includeContext_other_string :
  includeContext [("@context", JString SECURITY_CONTEXT_V1_URL)]
    SECURITY_CONTEXT_V2_URL = false.
Proof. reflexivity. Qed.

Example includeContext_inline_context :
  includeContext
    [("@context", JObject [("sec", JString SECURITY_CONTEXT_V2_URL)])]
    SECURITY_CONTEXT_V2_URL = false.
Proof. reflexivity. Qed.

Example includeContext_no_context :
  includeContext [("id", JString "did:example:alice")] SECURITY_CONTEXT_V2_URL = false.
Proof. reflexivity. Qed.

Example canonizeProof_sample_run :
  canonizeProof sample_canonize 1%positive fallback sample_store
    = ({| heap := {[ 1%positive :=
                       [("type", JString "DataIntegrityProof");
                        ("@context", JString "https://w3id.org/security/v2");
                        ("proofPurpose", JString "assertionMethod")] ]};
          world := 0 |},
       Returned (Resolved "type,@context,proofPurpose")).
Proof. vm_compute. reflexivity. Qed.

Example canonizeProof_dangling_reference :
  canonizeProof sample_canonize 2%positive fallback sample_store
    = (sample_store,
       Returned (RejectedWith
                   (JsError "TypeError" "Cannot convert undefined or null to object"))).
Proof. vm_compute. reflexivity. Qed.

Example basic_serves_security_context :
  basic sample_table SECURITY_CONTEXT_V2_URL 3
    = (3, Returned (Resolved {| contextUrl := None;
                                documentUrl := "https://w3id.org/security/v2";
                                document := JObject [("@context", JObject [])] |})).
Proof. vm_compute. reflexivity. Qed.

(** ** The theorems at work on the sample platform *)

Lemma extend_serves_table_else_delegates_witness :
  (exists d, sample_table !! SECURITY_CONTEXT_V2_URL = Some d
     /\ (forall w : nat,
           extend sample_table fallback SECURITY_CONTEXT_V2_URL w
             = (w, Returned (Resolved {| contextUrl := None;
                                         documentUrl := SECURITY_CONTEXT_V2_URL;
                                         document := d |})))
     /\ (forall g : Loader nat,
           @extend nat sample_table fallback SECURITY_CONTEXT_V2_URL
             = extend sample_table g SECURITY_CONTEXT_V2_URL))
  /\ @extend nat sample_table fallback "https://example.org/ctx"
     = fallback "https://example.org/ctx".
Proof.
  split.
  - apply (proj1 (extend_serves_table_else_delegates nat sample_table
                    fallback SECURITY_CONTEXT_V2_URL)).
    apply elem_of_dom. eexists. reflexivity.
  - apply (proj2 (extend_serves_table_else_delegates nat sample_table
                    fallback "https://example.org/ctx")).
    apply not_elem_of_dom. reflexivity.
Defined.

Lemma basic_is_extend_fallback_witness :
  (exists d, sample_table !! SECURITY_CONTEXT_V2_URL = Some d
     /\ basic sample_table SECURITY_CONTEXT_V2_URL 7
        = (7, Returned (Resolved {| contextUrl := None;
                                    documentUrl := SECURITY_CONTEXT_V2_URL;
                                    document := d |})))
  /\ basic sample_table "https://example.org/ctx" 7
     = (7, Threw (BasicError DOCUMENT_NOT_FOUND_ERROR "loader#defaultLoader"
                    (fallback_message "https://example.org/ctx"))).
Proof.
  split.
  - apply (proj1 (proj2 (basic_is_extend_fallback nat sample_table
                           SECURITY_CONTEXT_V2_URL 7))).
    apply elem_of_dom. eexists. reflexivity.
  - apply (proj1 (proj2 (proj2 (basic_is_extend_fallback nat sample_table
                                  "https://example.org/ctx" 7)))).
    apply not_elem_of_dom. reflexivity.
Defined.

Lemma network_fails_with_network_connection_error_witness :
  network sample_fetch sample_json sample_toString "https://example.org/down" 0
    = (1, Returned (RejectedWith
             (BasicError NETWORK_CONNECTION_ERROR "loader#defaultLoader"
                "Failed to fetch the resource from https://example.org/down: TypeError: fetch failed!")))
  /\ network sample_fetch sample_json sample_toString "https://example.org/page" 0
     = (1, Returned (RejectedWith
              (BasicError NETWORK_CONNECTION_ERROR "loader#defaultLoader"
                 "Failed to fetch the resource from https://example.org/page: SyntaxError: Unexpected token!")))
  /\ network sample_fetch sample_json sample_toString "https://example.org/ctx" 0
     = (1, Returned (Resolved {| contextUrl := Some "https://example.org/ctx";
                                 documentUrl := "https://example.org/ctx";
                                 document := JObject [] |}))
  /\ basic_code
       (BasicError NETWORK_CONNECTION_ERROR "loader#defaultLoader"
          "Failed to fetch the resource from https://example.org/down: TypeError: fetch failed!")
     = Some NETWORK_CONNECTION_ERROR.
Proof.
  pose proof (network_fails_with_network_connection_error nat string
                sample_fetch sample_json sample_toString) as H.
  split; [|split; [|split]].
  - apply (proj1 (H "https://example.org/down" 0) 1
             (Returned (RejectedWith (JsError "TypeError" "fetch failed")))
             (JsError "TypeError" "fetch failed")); reflexivity.
  - apply (proj1 (proj2 (H "https://example.org/page" 0)) 1 "<html>" 1
             (Returned (RejectedWith (JsError "SyntaxError" "Unexpected token")))
             (JsError "SyntaxError" "Unexpected token")); reflexivity.
  - apply (proj1 (proj2 (proj2 (H "https://example.org/ctx" 0))) 1 "{}" 1
             (JObject [])); reflexivity.
  - apply (proj2 (proj2 (proj2 (H "https://example.org/down" 0)))). reflexivity.
Defined.

Lemma canonizeProof_canonizes_stripped_proof_witness :
  heap (canonizeProof sample_canonize 1%positive fallback sample_store).1 !! 1%positive
    = Some [("type", JString "DataIntegrityProof");
            ("@context", JString "https://w3id.org/security/v2");
            ("proofPurpose", JString "assertionMethod")]
  /\ (canonizeProof sample_canonize 1%positive fallback sample_store).2
     = Returned (Resolved "type,@context,proofPurpose")
  /\ forall c n v : value,
       (canonizeProof sample_canonize 1%positive fallback
          (with_object sample_store 1%positive
             (set_property "proofValue" v
                (set_property "nonce" n (set_property "@context" c sample_proof))))).2
         = (canonizeProof sample_canonize 1%positive fallback sample_store).2.
Proof.
  pose proof (canonizeProof_canonizes_stripped_proof nat sample_canonize
                sample_store 1%positive sample_proof fallback eq_refl) as H.
  split; [|split].
  - exact (proj1 (proj2 H)).
  - exact (proj1 (proj2 (proj2 H))).
  - intros c n v.
    exact (proj1 (proj1 (proj2 (proj2 (proj2 (proj2 (proj2 (proj2 (proj2 H)))))))
                    c n v)).
Defined.

Lemma canonizeProof_mutates_its_argument_witness :
  heap (canonizeProof sample_canonize 1%positive fallback sample_store).1 !! 1%positive
    = Some [("type", JString "DataIntegrityProof");
            ("@context", JString "https://w3id.org/security/v2");
            ("proofPurpose", JString "assertionMethod")]
  /\ heap (canonizeProof sample_canonize 1%positive fallback sample_store).1 !! 1%positive
     <> heap sample_store !! 1%positive.
Proof.
  destruct (canonizeProof_mutates_its_argument nat sample_canonize
              sample_store 1%positive sample_proof fallback eq_refl)
    as (o' & Hlookup & Ho' & _ & _ & _ & _ & _ & Hchanged).
  split.
  - rewrite Hlookup, Ho'. reflexivity.
  - apply Hchanged. right. left. eexists. reflexivity.
Defined.

Lemma expandController_returns_what_framing_resolves_to_witness :
  (expandController sample_compacting_frame sample_controller_document
     "did:example:alice" "authentication" "did:example:alice#key-1"
     (basic sample_table) 0).2
    = Returned (Resolved [("@context", JString "https://w3id.org/security/v2")])
  /\ failure
       (expandController sample_compacting_frame sample_controller_document
          "did:example:alice" "authentication" "did:example:alice#key-1"
          (basic sample_table) 0).2
     = None.
Proof.
  pose proof (expandController_returns_what_framing_resolves_to nat
                sample_compacting_frame sample_controller_document
                "did:example:alice" "authentication" "did:example:alice#key-1"
                (basic sample_table) 0) as H.
  split.
  - apply (proj1 H). reflexivity.
  - rewrite (proj2 (proj2 H)); [reflexivity|]. intros w'. discriminate.
Defined.


(** ** The further properties at work on the sample platform *)

Lemma extend_fails_only_where_wrapped_fails_witness :
  (("https://example.org/ctx" ∉ dom sample_table)
   /\ failure (@fallback nat "https://example.org/ctx" 7).2
      = Some (BasicError DOCUMENT_NOT_FOUND_ERROR "loader#defaultLoader"
                (fallback_message "https://example.org/ctx")))
  /\ ((sample_table !! SECURITY_CONTEXT_V2_URL
        = Some (JObject [("@context", JObject [])])
      /\ SECURITY_CONTEXT_V2_URL = SECURITY_CONTEXT_V2_URL
      /\ @None URI = None)
     \/ ((SECURITY_CONTEXT_V2_URL ∉ dom sample_table)
         /\ delivered (@fallback nat SECURITY_CONTEXT_V2_URL 7).2
            = Some {| contextUrl := None;
                      documentUrl := SECURITY_CONTEXT_V2_URL;
                      document := JObject [("@context", JObject [])] |})).
Proof.
  split.
  - apply (proj1 (extend_fails_only_where_wrapped_fails nat sample_table
                    fallback "https://example.org/ctx" 7)).
    reflexivity.
  - apply (proj2 (extend_fails_only_where_wrapped_fails nat sample_table
                    fallback SECURITY_CONTEXT_V2_URL 7)
             {| contextUrl := None;
                documentUrl := SECURITY_CONTEXT_V2_URL;
                document := JObject [("@context", JObject [])] |}).
    reflexivity.
Defined.

Lemma extend_network_fails_off_table_only_witness :
  (("https://example.org/down" ∉ dom sample_table)
   /\ basic_code
        (BasicError NETWORK_CONNECTION_ERROR "loader#defaultLoader"
           "Failed to fetch the resource from https://example.org/down: TypeError: fetch failed!")
      = Some NETWORK_CONNECTION_ERROR)
  /\ (extend sample_table (network sample_fetch sample_json sample_toString)
        SECURITY_CONTEXT_V2_URL 0).1 = 0.
Proof.
  pose proof (extend_network_fails_off_table_only nat string sample_fetch
                sample_json sample_toString sample_table) as H.
  split.
  - apply (proj1 (proj2 (H "https://example.org/down" 0))). reflexivity.
  - apply (proj2 (proj2 (H SECURITY_CONTEXT_V2_URL 0))).
    apply elem_of_dom. eexists. reflexivity.
Defined.

Lemma canonizeProof_is_canonizeDocument_of_stripped_witness :
  (canonizeProof sample_canonize 1%positive fallback sample_store).2
    = (canonizeDocument sample_canonize
         [("type", JString "DataIntegrityProof");
          ("@context", JString "https://w3id.org/security/v2");
          ("proofPurpose", JString "assertionMethod")]
         fallback false 0).2.
Proof.
  exact (proj1 (canonizeProof_is_canonizeDocument_of_stripped nat sample_canonize
                  sample_store 1%positive sample_proof fallback eq_refl)).
Defined.

Lemma canonizeProof_twice_witness :
  heap (canonizeProof sample_canonize 1%positive fallback
          (canonizeProof sample_canonize 1%positive fallback sample_store).1).1
    = heap (canonizeProof sample_canonize 1%positive fallback sample_store).1
  /\ (canonizeProof sample_canonize 1%positive fallback
        (canonizeProof sample_canonize 1%positive fallback sample_store).1).2
     = Returned (Resolved "type,@context,proofPurpose").
Proof.
  destruct (canonizeProof_twice nat sample_canonize sample_store 1%positive
              sample_proof fallback eq_refl) as (Hheap & _ & Hsecond).
  split; [exact Hheap|]. rewrite Hsecond. reflexivity.
Defined.

Lemma canonizeProof_keeps_other_properties_in_order_witness :
  exists o',
    heap (canonizeProof sample_canonize 2%positive fallback sample_bare_store).1
      !! 2%positive = Some o'
    /\ delete_property "@context" o'
       = [("type", JString "DataIntegrityProof");
          ("created", JString "2024-01-01T00:00:00Z")].
Proof.
  destruct (canonizeProof_keeps_other_properties_in_order nat sample_canonize
              sample_bare_store 2%positive sample_bare_proof fallback eq_refl)
    as (o' & Hlookup & Hothers).
  exists o'. split; [exact Hlookup|]. rewrite Hothers. reflexivity.
Defined.

Lemma canonizeProof_context_position_witness :
  (exists o',
      heap (canonizeProof sample_canonize 2%positive fallback sample_bare_store).1
        !! 2%positive = Some o'
      /\ o' = [("type", JString "DataIntegrityProof");
               ("created", JString "2024-01-01T00:00:00Z");
               ("@context", JString "https://w3id.org/security/v2")])
  /\ (exists o',
        heap (canonizeProof sample_canonize 1%positive fallback sample_bare_store).1
          !! 1%positive = Some o'
        /\ map fst o' = ["type"; "@context"; "proofPurpose"]).
Proof.
  split.
  - destruct (canonizeProof_context_position nat sample_canonize
                sample_bare_store 2%positive sample_bare_proof fallback eq_refl)
      as (o' & Hlookup & Habsent & _).
    exists o'. split; [exact Hlookup|]. rewrite Habsent; reflexivity.
  - destruct (canonizeProof_context_position nat sample_canonize
                sample_bare_store 1%positive sample_proof fallback eq_refl)
      as (o' & Hlookup & _ & Hpresent).
    exists o'. split; [exact Hlookup|]. rewrite Hpresent; [reflexivity|].
    eexists. reflexivity.
Defined.

Lemma canonizeProof_failure_keeps_the_writes_witness :
  (canonizeProof sample_failing_canonize 1%positive fallback sample_store).2
    = Returned (RejectedWith
                  (JsError "jsonld.InvalidUrl" "Dereferencing a URL failed."))
  /\ heap (canonizeProof sample_failing_canonize 1%positive fallback sample_store).1
       !! 1%positive
     = Some [("type", JString "DataIntegrityProof");
             ("@context", JString "https://w3id.org/security/v2");
             ("proofPurpose", JString "assertionMethod")].
Proof.
  exact (canonizeProof_failure_keeps_the_writes nat sample_failing_canonize
           sample_store 1%positive sample_proof fallback
           (JsError "jsonld.InvalidUrl" "Dereferencing a URL failed.")
           eq_refl eq_refl).
Defined.

Lemma includeContext_after_canonizeProof_witness :
  exists o',
    heap (canonizeProof sample_canonize 1%positive fallback sample_store).1
      !! 1%positive = Some o'
    /\ includeContext o' SECURITY_V2 = true
    /\ includeContext o' CREDENTIAL_CONTEXT_V2_URL = false.
Proof.
  destruct (includeContext_after_canonizeProof nat sample_canonize
              sample_store 1%positive sample_proof fallback eq_refl)
    as (o' & Hlookup & Hsecurity & Hother).
  exists o'. split; [exact Hlookup|]. split; [exact Hsecurity|].
  apply Hother. discriminate.
Defined.

Lemma includeContext_depends_on_context_only_witness :
  includeContext (set_property "proofValue" (JString "z1") sample_proof)
    CREDENTIAL_CONTEXT_V2_URL
    = includeContext sample_proof CREDENTIAL_CONTEXT_V2_URL
  /\ includeContext (delete_property "proofValue" sample_proof)
       CREDENTIAL_CONTEXT_V2_URL
     = includeContext sample_proof CREDENTIAL_CONTEXT_V2_URL
  /\ includeContext
       (set_property "@context" (JString CREDENTIAL_CONTEXT_V2_URL) sample_proof)
       CREDENTIAL_CONTEXT_V2_URL = true
  /\ includeContext (delete_property "@context" sample_proof)
       CREDENTIAL_CONTEXT_V2_URL = false.
Proof.
  apply (includeContext_depends_on_context_only sample_proof
           CREDENTIAL_CONTEXT_V2_URL "proofValue" (JString "z1")).
  discriminate.
Defined.

Lemma expandController_passes_framing_failure_witness :
  (expandController sample_failing_frame sample_controller "did:example:alice"
     "assertionMethod" "did:example:alice#key-1" fallback 0).2
    = Returned (RejectedWith (JsError "jsonld.SyntaxError" "Invalid JSON-LD syntax.")).
Proof.
  apply (proj2 (proj2 (expandController_passes_framing_failure nat
                         sample_failing_frame sample_controller "did:example:alice"
                         "assertionMethod" "did:example:alice#key-1" fallback 0))).
  reflexivity.
Defined.

Lemma controller_frame_computed_key_witness :
  controller_frame "did:example:alice" "authentication" "did:example:alice#key-1"
    = [("@context", JString SECURITY_V2);
       ("id", JString "did:example:alice");
       ("authentication",
        JObject [("@embed", JString "@never");
                 ("id", JString "did:example:alice#key-1")])]
  /\ controller_frame "did:example:alice" "5" "did:example:alice#key-1"
     = [("5", JObject [("@embed", JString "@never");
                       ("id", JString "did:example:alice#key-1")]);
        ("@context", JString SECURITY_V2);
        ("id", JString "did:example:alice")]
  /\ controller_frame "did:example:alice" "id" "did:example:alice#key-1"
     = [("@context", JString SECURITY_V2);
        ("id", JObject [("@embed", JString "@never");
                        ("id", JString "did:example:alice#key-1")])]
  /\ controller_frame "did:example:alice" "@context" "did:example:alice#key-1"
     = [("@context", JObject [("@embed", JString "@never");
                              ("id", JString "did:example:alice#key-1")]);
        ("id", JString "did:example:alice")].
Proof.
  split; [|split; [|split]].
  - apply (proj1 (proj2 (controller_frame_computed_key "did:example:alice"
                           "authentication" "did:example:alice#key-1")));
      [discriminate|discriminate|reflexivity].
  - apply (proj1 (proj2 (proj2 (controller_frame_computed_key "did:example:alice"
                                  "5" "did:example:alice#key-1")))).
    reflexivity.
  - apply (proj1 (proj2 (proj2 (proj2 (controller_frame_computed_key
                                         "did:example:alice" "id"
                                         "did:example:alice#key-1"))))).
    reflexivity.
  - apply (proj2 (proj2 (proj2 (proj2 (controller_frame_computed_key
                                         "did:example:alice" "@context"
                                         "did:example:alice#key-1"))))).
    reflexivity.
Defined.

Lemma expandVerificationMethod_outcomes_witness :
  (expandVerificationMethod sample_frame_url "did:example:bob#key-9" fallback 0).2
    = Returned (RejectedWith
                  (JsError "Error"
                     "Verification method did:example:bob#key-9 not found."))
  /\ (expandVerificationMethod sample_frame_url "did:example:alice#key-1" fallback 0).2
     = Returned (Resolved [("id", JString "did:example:alice#key-1");
                           ("type", JString "Multikey")])
  /\ (expandVerificationMethod sample_frame_url "did:example:down#key-1" fallback 0).2
     = Returned (RejectedWith (JsError "jsonld.LoadDocumentError" "Could not load.")).
Proof.
  pose proof (expandVerificationMethod_outcomes nat sample_frame_url) as H.
  split; [|split].
  - apply (proj1 (proj2 (proj2 (H "did:example:bob#key-9" fallback 0)))).
    reflexivity.
  - apply (proj1 (proj2 (proj2 (proj2 (H "did:example:alice#key-1" fallback 0))))).
    reflexivity.
  - apply (proj2 (proj2 (proj2 (proj2 (H "did:example:down#key-1" fallback 0))))).
    reflexivity.
Defined.
